(** * FlipKit client workflow: upload page and offers page

    A shallow embedding of the two stateful React components of the
    frontend, the upload workflow ([HomePage]) and the offer review
    ([OffersContent]).  Each [useState] cell is a record field, each
    setter a function on the record, and each [async] handler is cut at
    its [await]s: the part that runs on the click, and the part that runs
    when the awaited promises have settled. *)

From stdpp Require Import base strings gmap list.
From Stdlib Require Import ZArith.
From Corelib Require Import PrimFloat.

(** [s ;> f ;> g]: the statements [f] and [g] run in this order on [s]. *)
Notation "s ;> f" := (f s) (at level 61, left associativity, only parsing).

(** ** The JavaScript runtime, as far as the handlers use it *)

(** A JavaScript [number]. *)
Definition number := float.

(** What a [catch (err)] clause receives: an [Error] with its [message],
    or some other thrown value. *)
Inductive thrown : Type :=
| ErrorObj (message : string)
| NotAnError.

(** [err instanceof Error ? err.message : 'Something went wrong'] *)
Definition displayMessage (err : thrown) : string :=
  match err with
  | ErrorObj message => message
  | NotAnError => "Something went wrong"
  end.

(** An awaited promise: fulfilled with a value, or rejected with the value
    thrown. *)
Inductive settled (A : Type) : Type :=
| Fulfilled (a : A)
| Rejected (err : thrown).
Arguments Fulfilled {A} a.
Arguments Rejected {A} err.

(** [await p; k]: a rejection of [p] leaves the [try] block at once. *)
Definition await {A B : Type} (p : settled A) (k : A -> settled B) : settled B :=
  match p with
  | Fulfilled a => k a
  | Rejected err => Rejected err
  end.

Notation "'let/a' x := p 'in' k" := (await p (fun x => k))
  (at level 10, x name, p at level 100, k at level 200, only parsing).

(** A [fetch] response: the HTTP status and what reading the body as text
    or as JSON gives.  [J] is the type the caller gives the parsed body. *)
Record Response (J : Type) : Type := {
  status : Z;
  text : settled string;
  json : settled J;
}.
Arguments status {J} r.
Arguments text {J} r.
Arguments json {J} r.

(** [response.ok]: the status is in the range 200-299. *)
Definition ok {J : Type} (response : Response J) : bool :=
  ((200 <=? status response) && (status response <=? 299))%Z.

(** What the outside world answers to one handler run: the token of the
    identity provider and the outcome of the single [fetch]. *)
Record Network (J : Type) : Type := {
  getToken : settled (option string);
  fetch : settled (Response J);
}.
Arguments getToken {J} n.
Arguments fetch {J} n.

(** Truthiness of a [string | null]: [null] and the empty string are falsy. *)
Definition truthy (v : option string) : bool :=
  match v with
  | Some s => negb (String.eqb s "")
  | None => false
  end.

(** ** The upload page *)

Module Home.

(** [type UploadState] *)
Inductive UploadState : Type :=
| Idle | Preview | Analyzing | Results | Calling | Error.

(** The part of a DOM [File] that the page reads. *)
Record File : Type := {
  name : string;
  type : string;
  size : N;
}.

Record NegotiationStrategy : Type := {
  opening_price : number;
  target_price : number;
  walk_away_price : number;
  opening_script : string;
  counter_script : string;
  accept_script : string;
  walk_away_script : string;
}.

Record PriceRange : Type := {
  low : number;
  fair : number;
  high : number;
  currency : string;
}.

Record Platform : Type := {
  platform_name : string;
  avg_price : number;
  demand : string;
  time_to_sell_days : number;
}.

Record Store : Type := {
  store_name : string;
  address : string;
  phone : string;
  specialty : string;
}.

Record AnalysisResult : Type := {
  analysis_id : string;
  image_url : string;
  item_name : string;
  item_description : string;
  estimated_price_range : PriceRange;
  best_platform : string;
  platforms : list Platform;
  local_stores : list Store;
  condition_tips : list string;
  confidence : number;
  negotiation_strategy : option NegotiationStrategy;
}.

(** The body of a successful [/api/negotiate] answer. *)
Record NegotiateReply : Type := {
  job_id : string;
}.

Record Coords : Type := {
  lat : number;
  lng : number;
}.

(** The [useState] cells of [HomePage], and the object URLs the browser
    holds for the page ([URL.createObjectURL] adds one,
    [URL.revokeObjectURL] drops it). *)
Record HomePage : Type := {
  state : UploadState;
  preview : option string;
  dragging : bool;
  currentFile : option File;
  analysisResult : option AnalysisResult;
  errorMessage : option string;
  coords : option Coords;
  jobId : option string;
  objectURLs : gset string;
}.

(** First render: every cell at its [useState] initial value. *)
Definition initial : HomePage := {|
  state := Idle;
  preview := None;
  dragging := false;
  currentFile := None;
  analysisResult := None;
  errorMessage := None;
  coords := None;
  jobId := None;
  objectURLs := ∅;
|}.

Definition setState (v : UploadState) (s : HomePage) : HomePage :=
  {| state := v; preview := preview s; dragging := dragging s;
     currentFile := currentFile s; analysisResult := analysisResult s;
     errorMessage := errorMessage s; coords := coords s; jobId := jobId s;
     objectURLs := objectURLs s |}.

Definition setPreview (v : option string) (s : HomePage) : HomePage :=
  {| state := state s; preview := v; dragging := dragging s;
     currentFile := currentFile s; analysisResult := analysisResult s;
     errorMessage := errorMessage s; coords := coords s; jobId := jobId s;
     objectURLs := objectURLs s |}.

Definition setDragging (v : bool) (s : HomePage) : HomePage :=
  {| state := state s; preview := preview s; dragging := v;
     currentFile := currentFile s; analysisResult := analysisResult s;
     errorMessage := errorMessage s; coords := coords s; jobId := jobId s;
     objectURLs := objectURLs s |}.

Definition setCurrentFile (v : option File) (s : HomePage) : HomePage :=
  {| state := state s; preview := preview s; dragging := dragging s;
     currentFile := v; analysisResult := analysisResult s;
     errorMessage := errorMessage s; coords := coords s; jobId := jobId s;
     objectURLs := objectURLs s |}.

Definition setAnalysisResult (v : option AnalysisResult) (s : HomePage) : HomePage :=
  {| state := state s; preview := preview s; dragging := dragging s;
     currentFile := currentFile s; analysisResult := v;
     errorMessage := errorMessage s; coords := coords s; jobId := jobId s;
     objectURLs := objectURLs s |}.

Definition setErrorMessage (v : option string) (s : HomePage) : HomePage :=
  {| state := state s; preview := preview s; dragging := dragging s;
     currentFile := currentFile s; analysisResult := analysisResult s;
     errorMessage := v; coords := coords s; jobId := jobId s;
     objectURLs := objectURLs s |}.

Definition setCoords (v : option Coords) (s : HomePage) : HomePage :=
  {| state := state s; preview := preview s; dragging := dragging s;
     currentFile := currentFile s; analysisResult := analysisResult s;
     errorMessage := errorMessage s; coords := v; jobId := jobId s;
     objectURLs := objectURLs s |}.

Definition setJobId (v : option string) (s : HomePage) : HomePage :=
  {| state := state s; preview := preview s; dragging := dragging s;
     currentFile := currentFile s; analysisResult := analysisResult s;
     errorMessage := errorMessage s; coords := coords s; jobId := v;
     objectURLs := objectURLs s |}.

(** [URL.createObjectURL(file)] returning [url]: the browser now holds it. *)
Definition createObjectURL (url : string) (s : HomePage) : HomePage :=
  {| state := state s; preview := preview s; dragging := dragging s;
     currentFile := currentFile s; analysisResult := analysisResult s;
     errorMessage := errorMessage s; coords := coords s; jobId := jobId s;
     objectURLs := {[ url ]} ∪ objectURLs s |}.

(** [URL.revokeObjectURL(url)] *)
Definition revokeObjectURL (url : string) (s : HomePage) : HomePage :=
  {| state := state s; preview := preview s; dragging := dragging s;
     currentFile := currentFile s; analysisResult := analysisResult s;
     errorMessage := errorMessage s; coords := coords s; jobId := jobId s;
     objectURLs := objectURLs s ∖ {[ url ]} |}.

(** [handleFile]; [url] is what [URL.createObjectURL] returns when it is
    called. *)
Definition handleFile (file : File) (url : string) (s : HomePage) : HomePage :=
  if negb (String.prefix "image/" (type file)) then s
  else s ;> createObjectURL url
         ;> setPreview (Some url)
         ;> setCurrentFile (Some file)
         ;> setState Preview.

(** [onFileChange], for both the file picker and the camera input;
    [files] is [e.target.files].  Clearing the input's [value] afterwards
    touches no cell of the page. *)
Definition onFileChange (files : list File) (url : string) (s : HomePage) : HomePage :=
  match files with
  | file :: _ => handleFile file url s
  | [] => s
  end.

(** [onDrop]; [files] is [e.dataTransfer.files]. *)
Definition onDrop (files : list File) (url : string) (s : HomePage) : HomePage :=
  let s := setDragging false s in
  match files with
  | file :: _ => handleFile file url s
  | [] => s
  end.

(** [reset] *)
Definition reset (s : HomePage) : HomePage :=
  (if truthy (preview s) then revokeObjectURL (default "" (preview s)) s else s)
  ;> setPreview None
  ;> setCurrentFile None
  ;> setAnalysisResult None
  ;> setErrorMessage None
  ;> setState Idle.

(** The [try] block of [handleAnalyze], from [await getToken()] on.  The
    request it sends (the form data with the file and the coordinates)
    does not enter any cell of the page. *)
Definition analyze (net : Network AnalysisResult) : settled AnalysisResult :=
  let/a token := getToken net in
  let/a response := fetch net in
  if negb (ok response) then
    let/a body := text response in
    Rejected (ErrorObj ("Analysis failed: " +:+ body))
  else
    let/a result := json response in
    Fulfilled result.

(** [handleAnalyze] up to its first [await]: [None] when it returns at
    the guard, without a request. *)
Definition handleAnalyze_begin (s : HomePage) : option HomePage :=
  match currentFile s with
  | None => None
  | Some _ => Some (s ;> setState Analyzing ;> setErrorMessage None)
  end.

(** [handleAnalyze] once the [try] block has run to its end or thrown:
    the setters act on the page as it is at that moment. *)
Definition handleAnalyze_settle (out : settled AnalysisResult) (s : HomePage) : HomePage :=
  match out with
  | Fulfilled result => s ;> setAnalysisResult (Some result) ;> setState Results
  | Rejected err => s ;> setErrorMessage (Some (displayMessage err)) ;> setState Error
  end.

(** One whole run of [handleAnalyze], nothing else happening meanwhile. *)
Definition handleAnalyze (net : Network AnalysisResult) (s : HomePage) : HomePage :=
  match handleAnalyze_begin s with
  | None => s
  | Some s' => handleAnalyze_settle (analyze net) s'
  end.

(** The [try] block of [handleNegotiate].  Its second line reads
    [const apiUrl = const apiUrl = ...]; it is taken as the one
    declaration that [handleAnalyze] has at the same place. *)
Definition negotiate (net : Network NegotiateReply) : settled string :=
  let/a token := getToken net in
  let/a res := fetch net in
  if negb (ok res) then
    let/a body := text res in
    Rejected (ErrorObj body)
  else
    let/a reply := json res in
    Fulfilled (job_id reply).

(** [handleNegotiate] up to its first [await]: [None] when it returns at
    the guard [!analysisResult?.analysis_id]; otherwise a request leaves
    and no cell changes. *)
Definition handleNegotiate_begin (s : HomePage) : option HomePage :=
  if truthy (analysis_id <$> analysisResult s) then Some s else None.

Definition handleNegotiate_settle (out : settled string) (s : HomePage) : HomePage :=
  match out with
  | Fulfilled job_id => s ;> setJobId (Some job_id) ;> setState Calling
  | Rejected err => s ;> setErrorMessage (Some (displayMessage err)) ;> setState Error
  end.

Definition handleNegotiate (net : Network NegotiateReply) (s : HomePage) : HomePage :=
  match handleNegotiate_begin s with
  | None => s
  | Some s' => handleNegotiate_settle (negotiate net) s'
  end.

(** The [onClick] of the "Try again" button of the error stage. *)
Definition retry (s : HomePage) : HomePage := setState Preview s.

(** The [href] of the "Check my offers" link of the calling stage:
    [`/offers?job_id=${jobId}`], where a [null] prints as [null]. *)
Definition offersHref (s : HomePage) : string :=
  "/offers?job_id=" +:+ default "null" (jobId s).

(** *** The page under user events and late answers

    Requests are not cancelled: one that has left stays in flight until
    its promise settles, and its continuation then runs on the page as it
    is.  A session is the page with the number of [handleAnalyze] and
    [handleNegotiate] runs waiting at an [await]. *)

Record Session : Type := {
  page : HomePage;
  analyzeInFlight : nat;
  negotiateInFlight : nat;
}.

Definition start : Session :=
  {| page := initial; analyzeInFlight := 0; negotiateInFlight := 0 |}.

Inductive Event : Type :=
| Located (c : Coords)
| DragOver
| DragLeave
| FileChange (files : list File) (url : string)
| Dropped (files : list File) (url : string)
| ClickAnalyze
| ClickNegotiate
| ClickReset
| ClickRetry
| AnalyzeSettled (net : Network AnalysisResult)
| NegotiateSettled (net : Network NegotiateReply).

(** The controls the JSX renders in each stage: the drop zone and the two
    file inputs in [idle]; analyze and reset in [preview]; nothing in
    [analyzing]; negotiate and reset in [results] (rendered only with an
    analysis result); reset in [calling]; retry and reset in [error]. *)
Definition rendered (e : Event) (s : HomePage) : bool :=
  match e, state s with
  | (DragOver | DragLeave | FileChange _ _ | Dropped _ _), Idle => true
  | (ClickAnalyze | ClickReset), Preview => true
  | (ClickNegotiate | ClickReset), Results => bool_decide (is_Some (analysisResult s))
  | ClickReset, Calling => true
  | (ClickRetry | ClickReset), Error => true
  | _, _ => false
  end.

Definition withPage (w : Session) (s : HomePage) : Session :=
  {| page := s; analyzeInFlight := analyzeInFlight w;
     negotiateInFlight := negotiateInFlight w |}.

(** One event; [None] when it cannot happen: the control is not on
    screen, or no such request is in flight. *)
Definition step (e : Event) (w : Session) : option Session :=
  match e with
  | Located c => Some (withPage w (setCoords (Some c) (page w)))
  | AnalyzeSettled net =>
      match analyzeInFlight w with
      | O => None
      | S n =>
          Some {| page := handleAnalyze_settle (analyze net) (page w);
                  analyzeInFlight := n;
                  negotiateInFlight := negotiateInFlight w |}
      end
  | NegotiateSettled net =>
      match negotiateInFlight w with
      | O => None
      | S n =>
          Some {| page := handleNegotiate_settle (negotiate net) (page w);
                  analyzeInFlight := analyzeInFlight w;
                  negotiateInFlight := n |}
      end
  | _ =>
      if negb (rendered e (page w)) then None else
      match e with
      | DragOver => Some (withPage w (setDragging true (page w)))
      | DragLeave => Some (withPage w (setDragging false (page w)))
      | FileChange files url => Some (withPage w (onFileChange files url (page w)))
      | Dropped files url => Some (withPage w (onDrop files url (page w)))
      | ClickAnalyze =>
          match handleAnalyze_begin (page w) with
          | Some s' =>
              Some {| page := s';
                      analyzeInFlight := S (analyzeInFlight w);
                      negotiateInFlight := negotiateInFlight w |}
          | None => Some w
          end
      | ClickNegotiate =>
          match handleNegotiate_begin (page w) with
          | Some s' =>
              Some {| page := s';
                      analyzeInFlight := analyzeInFlight w;
                      negotiateInFlight := S (negotiateInFlight w) |}
          | None => Some w
          end
      | ClickReset => Some (withPage w (reset (page w)))
      | ClickRetry => Some (withPage w (retry (page w)))
      | _ => None
      end
  end.

(** A sequence of events, from left to right. *)
Fixpoint run (es : list Event) (w : Session) : option Session :=
  match es with
  | [] => Some w
  | e :: es' =>
      match step e w with
      | Some w' => run es' w'
      | None => None
      end
  end.

(** *** What holds of every page a session can reach *)

(** The stage agrees with the cells: the idle stage holds nothing, the
    file and its preview come and go together, and each later stage has
    the datum it shows. *)
Definition stagesConsistent (w : Session) : Prop :=
  let s := page w in
  (state s = Idle ->
   preview s = None /\ analysisResult s = None /\ errorMessage s = None) /\
  (preview s = None <-> currentFile s = None) /\
  (state s = Analyzing -> is_Some (currentFile s) /\ 0 < analyzeInFlight w) /\
  (state s = Results -> is_Some (analysisResult s)) /\
  (state s = Calling -> is_Some (jobId s)) /\
  (state s = Error -> is_Some (errorMessage s)).




End Home.

(** ** The offers page *)

Module Offers.

Record OfferResult : Type := {
  id : string;
  store_name : string;
  store_address : string;
  store_phone : string;
  store_specialty : string;
  accepted : bool;
  agreed_price : option number;
  call_summary : option string;
}.

Record OffersData : Type := {
  job_id : string;
  status : string;
  item_name : string;
  image_url : string;
  offers : list OfferResult;
}.

(** [type PageState] *)
Inductive PageState : Type :=
| Loading | Ready | Error.

(** The [useState] cells of [OffersContent]. *)
Record OffersContent : Type := {
  pageState : PageState;
  data : option OffersData;
  errorMessage : option string;
  acceptedOfferId : option string;
}.

Definition initial : OffersContent := {|
  pageState := Loading;
  data := None;
  errorMessage := None;
  acceptedOfferId := None;
|}.

Definition setPageState (v : PageState) (s : OffersContent) : OffersContent :=
  {| pageState := v; data := data s; errorMessage := errorMessage s;
     acceptedOfferId := acceptedOfferId s |}.

Definition setData (v : option OffersData) (s : OffersContent) : OffersContent :=
  {| pageState := pageState s; data := v; errorMessage := errorMessage s;
     acceptedOfferId := acceptedOfferId s |}.

Definition setErrorMessage (v : option string) (s : OffersContent) : OffersContent :=
  {| pageState := pageState s; data := data s; errorMessage := v;
     acceptedOfferId := acceptedOfferId s |}.

Definition setAcceptedOfferId (v : option string) (s : OffersContent) : OffersContent :=
  {| pageState := pageState s; data := data s; errorMessage := errorMessage s;
     acceptedOfferId := v |}.

(** The [try] block of [fetchOffers]. *)
Definition getOffers (net : Network OffersData) : settled OffersData :=
  let/a token := getToken net in
  let/a res := fetch net in
  if negb (ok res) then
    let/a body := text res in
    Rejected (ErrorObj body)
  else
    let/a json := json res in
    Fulfilled json.

(** [fetchOffers] once its [try] block has run to its end or thrown. *)
Definition fetchOffers_settle (out : settled OffersData) (s : OffersContent) : OffersContent :=
  match out with
  | Fulfilled json => s ;> setData (Some json) ;> setPageState Ready
  | Rejected err => s ;> setErrorMessage (Some (displayMessage err)) ;> setPageState Error
  end.

(** One run of [fetchOffers]; [jobId] is [searchParams.get('job_id')].
    With a job id no cell is written before the answer is in. *)
Definition fetchOffers (jobId : option string) (net : Network OffersData)
    (s : OffersContent) : OffersContent :=
  if negb (truthy jobId) then
    s ;> setErrorMessage (Some "No job ID provided.") ;> setPageState Error
  else fetchOffers_settle (getOffers net) s.

(** [const accepted = (data?.offers.filter((o) => o.accepted) ?? []).slice(0, 2)] *)
Definition acceptedOffers (s : OffersContent) : list OfferResult :=
  take 2 (match data s with
          | Some d => List.filter (fun o => accepted o) (offers d)
          | None => []
          end).

(** [const declined = (data?.offers.filter((o) => !o.accepted) ?? []).slice(0, 1)] *)
Definition declinedOffers (s : OffersContent) : list OfferResult :=
  take 1 (match data s with
          | Some d => List.filter (fun o => negb (accepted o)) (offers d)
          | None => []
          end).

(** [data?.status === 'done'] *)
Definition statusDone (s : OffersContent) : bool :=
  match data s with
  | Some d => String.eqb (status d) "done"
  | None => false
  end.

(** What the page shows below its header. *)
Inductive Panel : Type :=
| LoadingPanel
| ErrorPanel (message : option string)
| InProgressPanel
| DonePanel (accepted declined : list OfferResult).

Definition isLoading (p : PageState) : bool :=
  match p with Loading => true | _ => false end.
Definition isReady (p : PageState) : bool :=
  match p with Ready => true | _ => false end.
Definition isError (p : PageState) : bool :=
  match p with Error => true | _ => false end.

(** The four conditional blocks of the JSX, in their order. *)
Definition panels (s : OffersContent) : list Panel :=
  (if isLoading (pageState s) then [LoadingPanel] else []) ++
  (if isError (pageState s) then [ErrorPanel (errorMessage s)] else []) ++
  (if isReady (pageState s) && negb (statusDone s) then [InProgressPanel] else []) ++
  (if isReady (pageState s) && statusDone s
   then [DonePanel (acceptedOffers s) (declinedOffers s)] else []).

(** The [onClick] of an accepted offer's button:
    [setAcceptedOfferId(acceptedOfferId === offer.id ? null : offer.id)] *)
Definition labelShown (s : OffersContent) (offer : OfferResult) : bool :=
  match acceptedOfferId s with
  | Some a => String.eqb a (id offer)
  | None => false
  end.

Definition toggleLabel (offer : OfferResult) (s : OffersContent) : OffersContent :=
  setAcceptedOfferId (if labelShown s offer then None else Some (id offer)) s.

(** The shipping labels under the accepted offers of the done panel:
    [acceptedOfferId === offer.id && <ShippingLabel offer={offer} ... />] *)
Definition shippingLabels (s : OffersContent) : list OfferResult :=
  List.filter (labelShown s) (acceptedOffers s).

End Offers.

(** ** Sample data *)

Module Samples.
Import Home.

Definition photo : File :=
  {| name := "lamp.jpg"; type := "image/jpeg"; size := 52340%N |}.

Definition invoice : File :=
  {| name := "invoice.pdf"; type := "application/pdf"; size := 1200%N |}.

#[warnings="-inexact-float"] Definition lamp : AnalysisResult := {|
  analysis_id := "a1";
  image_url := "https://cdn.example/lamp.jpg";
  item_name := "Desk lamp";
  item_description := "Brass desk lamp";
  estimated_price_range :=
    {| low := 200%float; fair := 240%float; high := 280%float;
       currency := "USD" |};
  best_platform := "eBay";
  platforms := [];
  local_stores := [];
  condition_tips := [];
  confidence := 0.8%float;
  negotiation_strategy := None;
|}.

(** The page with [photo] selected. *)
Definition previewPage : HomePage :=
  handleFile photo "blob:1" initial.

(** The page showing the analysis of [photo]. *)
Definition resultsPage : HomePage :=
  previewPage ;> setAnalysisResult (Some lamp) ;> setState Results.

(** The page after a negotiation for [lamp] was dispatched as job [j1]. *)
Definition callingPage : HomePage :=
  resultsPage ;> setJobId (Some "j1") ;> setState Calling.

Definition token : settled (option string) := Fulfilled (Some "tok").

(** [/api/analyze] answers 200 with [lamp]. *)
Definition analyzeOk : Network AnalysisResult :=
  {| getToken := token;
     fetch := Fulfilled {| status := 200%Z;
                           text := Fulfilled "{...}";
                           json := Fulfilled lamp |} |}.

(** [/api/analyze] answers 500 with the body [model unavailable]. *)
Definition analyze500 : Network AnalysisResult :=
  {| getToken := token;
     fetch := Fulfilled {| status := 500%Z;
                           text := Fulfilled "model unavailable";
                           json := Rejected (ErrorObj "Unexpected token m in JSON") |} |}.

(** [/api/negotiate] answers 200 with [{job_id: "j1"}]. *)
Definition negotiateOk : Network NegotiateReply :=
  {| getToken := token;
     fetch := Fulfilled {| status := 200%Z;
                           text := Fulfilled "{...}";
                           json := Fulfilled {| job_id := "j1" |} |} |}.

(** A session that reaches the results stage, asks for the negotiation
    and resets before the answer is in. *)
Definition resetDuringNegotiate : list Event :=
  [FileChange [photo] "blob:1"; ClickAnalyze; AnalyzeSettled analyzeOk;
   ClickNegotiate; ClickReset].

(** The same, going on to a second analysis that is still in flight when
    the late negotiation answer brings up the calling stage, where the
    user resets again. *)
Definition resetDuringAnalyze : list Event :=
  resetDuringNegotiate ++
  [FileChange [photo] "blob:2"; ClickAnalyze; NegotiateSettled negotiateOk;
   ClickReset].

(** The results stage of [photo] with one negotiation request out. *)
Definition negotiating : Session :=
  {| page := resultsPage; analyzeInFlight := 0; negotiateInFlight := 1 |}.

End Samples.

Module OfferSamples.
Import Offers.

Definition offer (n : string) (acc : bool) (price : option number) : OfferResult :=
  {| id := n; store_name := "Store " +:+ n; store_address := "1 Main St";
     store_phone := "555-0100"; store_specialty := "Lighting";
     accepted := acc; agreed_price := price; call_summary := None |}.

Definition snapshot (st : string) (os : list OfferResult) : OffersData :=
  {| job_id := "j1"; status := st; item_name := "Desk lamp";
     image_url := "https://cdn.example/lamp.jpg"; offers := os |}.

(** Two stores accepted, one declined. *)
Definition few : OffersData :=
  snapshot "done"
    [offer "s1" true (Some 300%float); offer "s2" false None;
     offer "s3" true (Some 450%float)].

(** Three stores accepted, two declined. *)
Definition many : OffersData :=
  snapshot "done"
    [offer "s1" true (Some 300%float); offer "s2" false None;
     offer "s3" true (Some 450%float); offer "s4" true (Some 500%float);
     offer "s5" false None].

(** The calls are still running; one store has answered. *)
Definition running : OffersData :=
  snapshot "pending" [offer "s1" true (Some 300%float)].

Definition answers (d : OffersData) : Network OffersData :=
  {| getToken := Fulfilled (Some "tok");
     fetch := Fulfilled (Build_Response OffersData 200%Z
                           (Fulfilled "{...}") (Fulfilled d)) |}.

Definition showing (d : OffersData) : OffersContent :=
  initial ;> setData (Some d) ;> setPageState Ready.

End OfferSamples.

(** ** The identity provider's webhook ([POST] of the webhooks route) *)

Module Webhook.

Record EmailAddress : Type := {
  email_address : string;
}.

(** [evt.data] of a [user.created] event, with the two fields the handler
    tests for absence as options. *)
Record UserData : Type := {
  id : option string;
  email_addresses : option (list EmailAddress);
  first_name : option string;
  last_name : option string;
}.

(** A verified event: [user.created], or another member of the union. *)
Inductive WebhookEvent : Type :=
| UserCreated (data : UserData)
| OtherEvent (type : string).

(** The object passed to [supabase.from("users").insert]. *)
Record UserRow : Type := {
  user_id : string;
  email : string;
  row_first_name : option string;
  row_last_name : option string;
}.

(** [new Response(body, { status })] *)
Record Response : Type := {
  body : string;
  status : Z;
}.

(** What one call of the handler does: its answer, the rows it sent to
    the [users] table and the [console.error] lines, each in order. *)
Record Outcome : Type := {
  response : Response;
  inserted : list UserRow;
  logged : list string;
}.

(** [v || null] *)
Definition orNull (v : option string) : option string :=
  if truthy v then v else None.

(** [POST]: [verify] is the outcome of [verifyWebhook(req)], and [insert]
    what the database client resolves to for a row: [{ error }], with
    [None] for no error. *)
Definition POST (verify : settled WebhookEvent)
    (insert : UserRow -> settled (option string)) : Outcome :=
  let caught := {| response := {| body := "Webhook error"; status := 400 |};
                   inserted := []; logged := ["Error processing webhook:"] |} in
  let invalid := {| response := {| body := "Invalid webhook payload"; status := 400 |};
                    inserted := [];
                    logged := ["Missing required user data in webhook payload:"] |} in
  let processed rows := {| response := {| body := "Webhook processed successfully";
                                          status := 200 |};
                           inserted := rows; logged := [] |} in
  match verify with
  | Rejected err => caught
  | Fulfilled (OtherEvent _) => processed []
  | Fulfilled (UserCreated data) =>
      match id data, email_addresses data with
      | Some i, Some (first :: _) =>
          if negb (truthy (Some i)) then invalid else
          let row := {| user_id := i;
                        email := email_address first;
                        row_first_name := orNull (first_name data);
                        row_last_name := orNull (last_name data) |} in
          match insert row with
          | Rejected err =>
              {| response := response caught; inserted := [row];
                 logged := logged caught |}
          | Fulfilled (Some error) =>
              {| response := {| body := "Database error"; status := 500 |};
                 inserted := [row];
                 logged := ["Error inserting user into database:"] |}
          | Fulfilled None => processed [row]
          end
      | _, _ => invalid
      end
  end.

(** Sample calls. *)
Definition ada : UserData :=
  {| id := Some "user_1";
     email_addresses := Some [ {| email_address := "ada@example.org" |};
                               {| email_address := "ada@work.example" |} ];
     first_name := Some "Ada"; last_name := Some "" |}.

Definition accepts (row : UserRow) : settled (option string) := Fulfilled None.

End Webhook.

(** ** Properties of the upload page *)

Section HomeFacts.
Import Home.

(** The cells a setter does not name keep their value. *)
Lemma reset_cells (s : HomePage) :
  state (reset s) = Idle /\ preview (reset s) = None /\
  currentFile (reset s) = None /\ analysisResult (reset s) = None /\
  errorMessage (reset s) = None /\
  jobId (reset s) = jobId s /\ coords (reset s) = coords s /\
  dragging (reset s) = dragging s.
Proof.
  unfold reset. destruct (truthy (preview s)); cbn; tauto.
Qed.

Lemma reset_revokes (s : HomePage) (url : string) :
  preview s = Some url -> url <> "" -> url ∉ objectURLs (reset s).
Proof.
  intros Hp Hne. unfold reset. rewrite Hp. cbn.
  destruct (String.eqb url "") eqn:E; cbn.
  - apply String.eqb_eq in E. contradiction.
  - rewrite elem_of_difference, elem_of_singleton. tauto.
Qed.

Lemma reset_without_image (s : HomePage) :
  preview s = None -> objectURLs (reset s) = objectURLs s.
Proof. intros Hp. unfold reset. rewrite Hp. reflexivity. Qed.

Lemma ok_status {J : Type} (response : Response J) :
  ok response = true <-> (200 <= status response <= 299)%Z.
Proof. unfold ok. rewrite andb_true_iff, !Z.leb_le. tauto. Qed.

(** No control is on screen while the page shows [analyzing]. *)
Lemma analyzing_offers_nothing (e : Event) (s : HomePage) :
  state s = Analyzing -> rendered e s = false.
Proof. intros Hs. unfold rendered. rewrite Hs. destruct e; reflexivity. Qed.

(** C1 (at the input where the code departs from it): [reset] from the
    calling stage, with job [j1] dispatched, gives the idle stage with no
    preview, no file, no analysis result and no error message, and the
    preview's object URL is revoked; but the job handle is still [j1],
    whereas [reset] from the first idle page leaves no job handle. *)
Theorem reset_from_calling_keeps_job_handle :
  state (reset Samples.callingPage) = Idle /\
  preview (reset Samples.callingPage) = None /\
  currentFile (reset Samples.callingPage) = None /\
  analysisResult (reset Samples.callingPage) = None /\
  errorMessage (reset Samples.callingPage) = None /\
  objectURLs (reset Samples.callingPage) = ∅ /\
  jobId (reset Samples.callingPage) = Some "j1" /\
  jobId (reset initial) = None /\
  reset initial = initial.
Proof.
  repeat split; reflexivity.
Qed.

(** C4: a file whose MIME type does not begin with [image/] is ignored by
    the capture handler: [handleFile] returns the page as it was, cell by
    cell and with the same object URLs, so the stage stays, no preview
    handle is created and no error message is set.  The same holds when
    the file arrives from the picker or the camera ([onFileChange]); a
    drop is [handleFile] after the drag highlight is switched off, and
    changes nothing else. *)
Theorem non_image_file_ignored (file : File) (rest : list File)
    (url : string) (s : HomePage) :
  String.prefix "image/" (type file) = false ->
  handleFile file url s = s /\
  onFileChange (file :: rest) url s = s /\
  onDrop (file :: rest) url s = setDragging false s /\
  state (onDrop (file :: rest) url s) = state s /\
  preview (onDrop (file :: rest) url s) = preview s /\
  currentFile (onDrop (file :: rest) url s) = currentFile s /\
  errorMessage (onDrop (file :: rest) url s) = errorMessage s /\
  objectURLs (onDrop (file :: rest) url s) = objectURLs s.
Proof.
  intros Hty.
  assert (Hh : forall s', handleFile file url s' = s').
  { intros s'. unfold handleFile. rewrite Hty. reflexivity. }
  unfold onFileChange, onDrop. rewrite !Hh. repeat split.
Qed.

Lemma non_image_file_ignored_witness :
  handleFile Samples.invoice "blob:2" Samples.previewPage = Samples.previewPage /\
  state (onDrop [Samples.invoice] "blob:2" initial) = Idle.
Proof.
  pose proof (non_image_file_ignored Samples.invoice [] "blob:2"
                Samples.previewPage eq_refl) as H1.
  pose proof (non_image_file_ignored Samples.invoice [] "blob:2"
                initial eq_refl) as H2.
  split.
  - exact (proj1 H1).
  - exact (proj1 (proj2 (proj2 (proj2 H2)))).
Defined.

(** The [try] block of [handleAnalyze] on a 2xx answer with a body that
    parses, and on an answer outside 2xx whose body can be read. *)
Lemma analyze_2xx (net : Network AnalysisResult) (token : option string)
    (response : Response AnalysisResult) (payload : AnalysisResult) :
  getToken net = Fulfilled token -> fetch net = Fulfilled response ->
  ok response = true -> json response = Fulfilled payload ->
  analyze net = Fulfilled payload.
Proof.
  intros Ht Hf Hok Hj. unfold analyze. rewrite Ht, Hf. cbn.
  rewrite Hok. cbn. rewrite Hj. reflexivity.
Qed.

Lemma analyze_not_2xx (net : Network AnalysisResult) (token : option string)
    (response : Response AnalysisResult) (body : string) :
  getToken net = Fulfilled token -> fetch net = Fulfilled response ->
  ok response = false -> text response = Fulfilled body ->
  analyze net = Rejected (ErrorObj ("Analysis failed: " +:+ body)).
Proof.
  intros Ht Hf Hok Hb. unfold analyze. rewrite Ht, Hf. cbn.
  rewrite Hok. cbn. rewrite Hb. reflexivity.
Qed.

Lemma negotiate_2xx (net : Network NegotiateReply) (token : option string)
    (res : Response NegotiateReply) (reply : NegotiateReply) :
  getToken net = Fulfilled token -> fetch net = Fulfilled res ->
  ok res = true -> json res = Fulfilled reply ->
  negotiate net = Fulfilled (job_id reply).
Proof.
  intros Ht Hf Hok Hj. unfold negotiate. rewrite Ht, Hf. cbn.
  rewrite Hok. cbn. rewrite Hj. reflexivity.
Qed.

(** C2: when a file is held and [/api/analyze] answers 2xx with a JSON
    body, a run of [handleAnalyze] ends in the results stage and the
    stored analysis result is the parsed body itself; the file, the
    preview, the job handle and the object URLs are as before, and the
    error message is cleared. *)
Theorem analyze_success_stores_payload (net : Network AnalysisResult)
    (s : HomePage) (file : File) (token : option string)
    (response : Response AnalysisResult) (payload : AnalysisResult) :
  currentFile s = Some file ->
  getToken net = Fulfilled token -> fetch net = Fulfilled response ->
  (200 <= status response <= 299)%Z -> json response = Fulfilled payload ->
  state (handleAnalyze net s) = Results /\
  analysisResult (handleAnalyze net s) = Some payload /\
  errorMessage (handleAnalyze net s) = None /\
  currentFile (handleAnalyze net s) = Some file /\
  preview (handleAnalyze net s) = preview s /\
  jobId (handleAnalyze net s) = jobId s /\
  objectURLs (handleAnalyze net s) = objectURLs s.
Proof.
  intros Hfile Ht Hf Hst Hj. apply ok_status in Hst.
  unfold handleAnalyze, handleAnalyze_begin. rewrite Hfile.
  rewrite (analyze_2xx net token response payload Ht Hf Hst Hj). cbn.
  repeat split. exact Hfile.
Qed.

Lemma analyze_success_stores_payload_witness :
  state (handleAnalyze Samples.analyzeOk Samples.previewPage) = Results /\
  analysisResult (handleAnalyze Samples.analyzeOk Samples.previewPage)
    = Some Samples.lamp.
Proof.
  assert (Hst : (200 <= 200 <= 299)%Z) by lia.
  pose proof (analyze_success_stores_payload Samples.analyzeOk
                Samples.previewPage Samples.photo (Some "tok") _ Samples.lamp
                eq_refl eq_refl eq_refl Hst eq_refl) as H.
  exact (conj (proj1 H) (proj1 (proj2 H))).
Defined.

Lemma not_ok_status {J : Type} (response : Response J) :
  ok response = false <-> (status response < 200 \/ 299 < status response)%Z.
Proof.
  unfold ok. rewrite andb_false_iff, !Z.leb_gt. tauto.
Qed.

(** C3, as stated, fails at its own example: [/api/analyze] answering 500
    with the body [model unavailable] brings up the error stage, but the
    message is the body behind the prefix [Analysis failed: ], not the
    body. *)
Lemma analyze_500_message_is_prefixed :
  state (handleAnalyze Samples.analyze500 Samples.previewPage) = Error /\
  errorMessage (handleAnalyze Samples.analyze500 Samples.previewPage)
    = Some "Analysis failed: model unavailable" /\
  errorMessage (handleAnalyze Samples.analyze500 Samples.previewPage)
    <> Some "model unavailable".
Proof. repeat split. discriminate. Qed.

(** C3, amended: when a file is held and [/api/analyze] answers outside
    2xx with a readable body, a run of [handleAnalyze] ends in the error
    stage and the error message is [Analysis failed: ] followed by the
    body text; no analysis result is stored by the run. *)
Theorem analyze_failure_message (net : Network AnalysisResult)
    (s : HomePage) (file : File) (token : option string)
    (response : Response AnalysisResult) (body : string) :
  currentFile s = Some file ->
  getToken net = Fulfilled token -> fetch net = Fulfilled response ->
  (status response < 200 \/ 299 < status response)%Z ->
  text response = Fulfilled body ->
  state (handleAnalyze net s) = Error /\
  errorMessage (handleAnalyze net s) = Some ("Analysis failed: " +:+ body) /\
  analysisResult (handleAnalyze net s) = analysisResult s.
Proof.
  intros Hfile Ht Hf Hst Hb. apply not_ok_status in Hst.
  unfold handleAnalyze, handleAnalyze_begin. rewrite Hfile.
  rewrite (analyze_not_2xx net token response body Ht Hf Hst Hb).
  repeat split.
Qed.

Lemma analyze_failure_message_witness :
  state (handleAnalyze Samples.analyze500 Samples.previewPage) = Error /\
  errorMessage (handleAnalyze Samples.analyze500 Samples.previewPage)
    = Some "Analysis failed: model unavailable".
Proof.
  assert (Hst : (500 < 200 \/ 299 < 500)%Z) by lia.
  pose proof (analyze_failure_message Samples.analyze500 Samples.previewPage
                Samples.photo (Some "tok") _ "model unavailable"
                eq_refl eq_refl eq_refl Hst eq_refl) as H.
  exact (conj (proj1 H) (proj1 (proj2 H))).
Defined.

(** C6: in the results stage, with an analysis result whose [analysis_id]
    is not empty, clicking the negotiate button and [/api/negotiate]
    answering 2xx with [{job_id: j}] stores [j] as the job handle and
    brings up the calling stage, whose link to the offers page is
    [/offers?job_id=] followed by [j]. *)
Theorem negotiate_success_dispatches (w : Session)
    (net : Network NegotiateReply) (a : AnalysisResult)
    (token : option string) (res : Response NegotiateReply)
    (reply : NegotiateReply) :
  state (page w) = Results ->
  analysisResult (page w) = Some a -> analysis_id a <> "" ->
  getToken net = Fulfilled token -> fetch net = Fulfilled res ->
  (200 <= status res <= 299)%Z -> json res = Fulfilled reply ->
  exists w',
    run [ClickNegotiate; NegotiateSettled net] w = Some w' /\
    page w' = handleNegotiate net (page w) /\
    jobId (page w') = Some (job_id reply) /\
    state (page w') = Calling /\
    offersHref (page w') = "/offers?job_id=" +:+ job_id reply.
Proof.
  intros Hs Ha Hid Ht Hf Hst Hj. apply ok_status in Hst.
  pose proof (negotiate_2xx net token res reply Ht Hf Hst Hj) as Hn.
  assert (Hb : handleNegotiate_begin (page w) = Some (page w)).
  { unfold handleNegotiate_begin. rewrite Ha. cbn.
    destruct (String.eqb (analysis_id a) "") eqn:E; [|reflexivity].
    apply String.eqb_eq in E. contradiction. }
  eexists. split.
  - cbn. unfold rendered. rewrite Hs, Ha, Hb. cbn. reflexivity.
  - unfold handleNegotiate. rewrite Hb, Hn. repeat split.
Qed.

Lemma negotiate_success_dispatches_witness :
  exists w',
    run [ClickNegotiate; NegotiateSettled Samples.negotiateOk]
        {| page := Samples.resultsPage; analyzeInFlight := 0;
           negotiateInFlight := 0 |} = Some w' /\
    state (page w') = Calling /\
    offersHref (page w') = "/offers?job_id=j1".
Proof.
  assert (Hst : (200 <= 200 <= 299)%Z) by lia.
  assert (Hid : "a1" <> "") by discriminate.
  destruct (negotiate_success_dispatches
              {| page := Samples.resultsPage; analyzeInFlight := 0;
                 negotiateInFlight := 0 |}
              Samples.negotiateOk Samples.lamp (Some "tok") _ _
              eq_refl eq_refl Hid eq_refl eq_refl Hst eq_refl)
    as (w' & Hrun & _ & _ & Hstate & Hhref).
  exists w'. exact (conj Hrun (conj Hstate Hhref)).
Defined.

(** The retry button is on screen in the error stage, and pressing it
    writes the stage cell only. *)
Lemma retry_frame (w : Session) :
  state (page w) = Error ->
  step ClickRetry w = Some (withPage w (retry (page w))) /\
  state (retry (page w)) = Preview /\
  preview (retry (page w)) = preview (page w) /\
  dragging (retry (page w)) = dragging (page w) /\
  currentFile (retry (page w)) = currentFile (page w) /\
  analysisResult (retry (page w)) = analysisResult (page w) /\
  errorMessage (retry (page w)) = errorMessage (page w) /\
  coords (retry (page w)) = coords (page w) /\
  jobId (retry (page w)) = jobId (page w) /\
  objectURLs (retry (page w)) = objectURLs (page w).
Proof.
  intros Hs. cbn. unfold rendered. rewrite Hs. repeat split.
Qed.

(** A failed analysis touches neither the file nor its preview. *)
Lemma analyze_failure_keeps_image (out : thrown) (s : HomePage) :
  state (handleAnalyze_settle (Rejected out) s) = Error /\
  currentFile (handleAnalyze_settle (Rejected out) s) = currentFile s /\
  preview (handleAnalyze_settle (Rejected out) s) = preview s /\
  objectURLs (handleAnalyze_settle (Rejected out) s) = objectURLs s.
Proof. repeat split. Qed.

(** C9: after an analysis of the held image has failed, the page is in
    the error stage; pressing "Try again" there brings back the preview
    stage with the file and the preview handle held before the failure,
    the handle still live if it was, and changes no cell but the stage. *)
Theorem retry_returns_to_preview_with_image (w : Session)
    (net : Network AnalysisResult) (file : File) (err : thrown) :
  state (page w) = Preview -> currentFile (page w) = Some file ->
  analyze net = Rejected err ->
  exists failed again,
    run [ClickAnalyze; AnalyzeSettled net] w = Some failed /\
    state (page failed) = Error /\
    step ClickRetry failed = Some again /\
    state (page again) = Preview /\
    currentFile (page again) = Some file /\
    preview (page again) = preview (page w) /\
    objectURLs (page again) = objectURLs (page w) /\
    dragging (page again) = dragging (page failed) /\
    analysisResult (page again) = analysisResult (page failed) /\
    errorMessage (page again) = errorMessage (page failed) /\
    coords (page again) = coords (page failed) /\
    jobId (page again) = jobId (page failed).
Proof.
  intros Hs Hfile Hout.
  assert (Hrun : run [ClickAnalyze; AnalyzeSettled net] w
                 = Some {| page := handleAnalyze_settle (Rejected err)
                                     (page w ;> setState Analyzing
                                             ;> setErrorMessage None);
                           analyzeInFlight := analyzeInFlight w;
                           negotiateInFlight := negotiateInFlight w |}).
  { cbn. unfold rendered, handleAnalyze_begin. rewrite Hs, Hfile. cbn.
    rewrite Hout. reflexivity. }
  eexists. eexists. split; [exact Hrun|].
  split; [reflexivity|].
  split; [apply retry_frame; reflexivity|].
  cbn. repeat split. exact Hfile.
Qed.

Lemma retry_returns_to_preview_with_image_witness :
  exists failed again,
    run [ClickAnalyze; AnalyzeSettled Samples.analyze500]
        {| page := Samples.previewPage; analyzeInFlight := 0;
           negotiateInFlight := 0 |} = Some failed /\
    step ClickRetry failed = Some again /\
    state (page again) = Preview /\
    currentFile (page again) = Some Samples.photo /\
    preview (page again) = Some "blob:1".
Proof.
  destruct (retry_returns_to_preview_with_image
              {| page := Samples.previewPage; analyzeInFlight := 0;
                 negotiateInFlight := 0 |}
              Samples.analyze500 Samples.photo
              (ErrorObj "Analysis failed: model unavailable")
              eq_refl eq_refl eq_refl)
    as (failed & again & Hrun & _ & Hstep & Hst & Hfile & Hprev & _).
  exists failed, again.
  exact (conj Hrun (conj Hstep (conj Hst (conj Hfile Hprev)))).
Defined.

(** C8, as stated, fails.  A reset while the negotiation request is out
    leaves the idle stage with that request still in flight, and its
    answer then brings up the calling stage with job [j1].  The same hole
    lets a reset fall while an analysis is out: its answer then brings up
    the results stage and stores the analysis result, with no file held. *)
Lemma late_answer_leaves_idle :
  (exists w w',
     run Samples.resetDuringNegotiate start = Some w /\
     state (page w) = Idle /\ negotiateInFlight w = 1 /\
     step (NegotiateSettled Samples.negotiateOk) w = Some w' /\
     state (page w') = Calling /\ jobId (page w') = Some "j1") /\
  (exists w w',
     run Samples.resetDuringAnalyze start = Some w /\
     state (page w) = Idle /\ analysisResult (page w) = None /\
     analyzeInFlight w = 1 /\
     step (AnalyzeSettled Samples.analyzeOk) w = Some w' /\
     state (page w') = Results /\
     analysisResult (page w') = Some Samples.lamp /\
     currentFile (page w') = None).
Proof.
  split; eexists; eexists; (split; [vm_compute; reflexivity|]);
    repeat split.
Qed.

(** C8, amended: there is no guard against late answers.  Wherever the
    reset button is on screen and a request is in flight, a reset
    followed by the answer runs the handler's continuation on the page
    that [reset] left: a fulfilled analysis brings up the results stage
    and stores its payload, a fulfilled negotiation stores its job handle
    and brings up the calling stage, a rejected one of either kind brings
    up the error stage with its message; the file and the preview stay
    cleared. *)
Theorem late_answer_applied_after_reset (w : Session)
    (analysis : Network AnalysisResult) (negotiation : Network NegotiateReply) :
  rendered ClickReset (page w) = true ->
  (0 < analyzeInFlight w ->
   exists w',
     run [ClickReset; AnalyzeSettled analysis] w = Some w' /\
     page w' = handleAnalyze_settle (analyze analysis) (reset (page w)) /\
     currentFile (page w') = None /\ preview (page w') = None /\
     match analyze analysis with
     | Fulfilled payload =>
         state (page w') = Results /\ analysisResult (page w') = Some payload
     | Rejected err =>
         state (page w') = Error /\
         errorMessage (page w') = Some (displayMessage err) /\
         analysisResult (page w') = None
     end) /\
  (0 < negotiateInFlight w ->
   exists w',
     run [ClickReset; NegotiateSettled negotiation] w = Some w' /\
     page w' = handleNegotiate_settle (negotiate negotiation) (reset (page w)) /\
     currentFile (page w') = None /\ preview (page w') = None /\
     analysisResult (page w') = None /\
     match negotiate negotiation with
     | Fulfilled j =>
         state (page w') = Calling /\ jobId (page w') = Some j
     | Rejected err =>
         state (page w') = Error /\
         errorMessage (page w') = Some (displayMessage err)
     end).
Proof.
  intros Hr.
  assert (Hstep : step ClickReset w = Some (withPage w (reset (page w)))).
  { unfold step. rewrite Hr. reflexivity. }
  pose proof (reset_cells (page w)) as (_ & Hp & Hf & Ha & _).
  split; intros Hn.
  - destruct (analyzeInFlight w) as [|n] eqn:En; [lia|].
    eexists. split.
    { cbn [run]. rewrite Hstep. cbn. rewrite En. reflexivity. }
    cbn. split; [reflexivity|].
    destruct (analyze analysis); cbn; rewrite ?Hp, ?Hf, ?Ha; repeat split.
  - destruct (negotiateInFlight w) as [|n] eqn:En; [lia|].
    eexists. split.
    { cbn [run]. rewrite Hstep. cbn. rewrite En. reflexivity. }
    cbn. split; [reflexivity|].
    destruct (negotiate negotiation); cbn; rewrite ?Hp, ?Hf, ?Ha; repeat split.
Qed.

Lemma negotiating_reached :
  run [FileChange [Samples.photo] "blob:1"; ClickAnalyze;
       AnalyzeSettled Samples.analyzeOk; ClickNegotiate] start
  = Some Samples.negotiating.
Proof. vm_compute. reflexivity. Qed.

Lemma late_answer_applied_after_reset_witness :
  exists w',
    run [ClickReset; NegotiateSettled Samples.negotiateOk] Samples.negotiating
      = Some w' /\
    state (page w') = Calling /\ jobId (page w') = Some "j1" /\
    analysisResult (page w') = None.
Proof.
  assert (Hn : 0 < negotiateInFlight Samples.negotiating) by (cbn; lia).
  destruct (proj2 (late_answer_applied_after_reset Samples.negotiating
                     Samples.analyzeOk Samples.negotiateOk eq_refl) Hn)
    as (w' & Hrun & _ & _ & _ & Ha & Hst & Hj).
  exists w'. exact (conj Hrun (conj Hst (conj Hj Ha))).
Defined.

End HomeFacts.

(** ** Properties of the offers page *)

Section OffersFacts.

Lemma getOffers_2xx (net : Network Offers.OffersData) (token : option string)
    (res : Response Offers.OffersData) (d : Offers.OffersData) :
  getToken net = Fulfilled token -> fetch net = Fulfilled res ->
  (200 <= status res <= 299)%Z -> json res = Fulfilled d ->
  Offers.getOffers net = Fulfilled d.
Proof.
  intros Ht Hf Hst Hj. apply ok_status in Hst.
  unfold Offers.getOffers. rewrite Ht, Hf. cbn.
  rewrite Hst. cbn. rewrite Hj. reflexivity.
Qed.

(** [slice(0, n)] keeps at most [n] entries, and all of them when there
    are no more than [n]. *)
Lemma slice_length {A : Type} (n : nat) (l : list A) : length (take n l) <= n.
Proof. rewrite length_take. lia. Qed.

Lemma slice_all {A : Type} (n : nat) (l : list A) :
  length l <= n -> take n l = l.
Proof. intros H. apply take_ge. exact H. Qed.

(** With a snapshot marked [done] on a ready page, the done panel is the
    only one on screen. *)
Lemma done_panel (s : Offers.OffersContent) (d : Offers.OffersData) :
  Offers.pageState s = Offers.Ready -> Offers.data s = Some d ->
  Offers.status d = "done" ->
  Offers.panels s
  = [Offers.DonePanel (Offers.acceptedOffers s) (Offers.declinedOffers s)].
Proof.
  intros Hp Hd Hs. unfold Offers.panels, Offers.statusDone.
  rewrite Hp, Hd, Hs. reflexivity.
Qed.

(** With any other status the in-progress panel is the only one. *)
Lemma in_progress_panel (s : Offers.OffersContent) (d : Offers.OffersData) :
  Offers.pageState s = Offers.Ready -> Offers.data s = Some d ->
  Offers.status d <> "done" ->
  Offers.panels s = [Offers.InProgressPanel].
Proof.
  intros Hp Hd Hs. unfold Offers.panels, Offers.statusDone.
  rewrite Hp, Hd. destruct (String.eqb (Offers.status d) "done") eqn:E.
  - apply String.eqb_eq in E. contradiction.
  - reflexivity.
Qed.

(** [Array.prototype.filter] keeps entries in their order, keeps only
    entries that pass the test, and keeps all of those. *)
Lemma filter_sublist {A : Type} (f : A -> bool) (l : list A) :
  List.filter f l `sublist_of` l.
Proof.
  induction l as [|x l IH]; cbn.
  - constructor.
  - destruct (f x).
    + apply sublist_skip. exact IH.
    + apply sublist_cons. exact IH.
Qed.

Lemma filter_all_pass {A : Type} (f : A -> bool) (l : list A) :
  Forall (fun x => f x = true) (List.filter f l).
Proof.
  induction l as [|x l IH]; cbn.
  - constructor.
  - destruct (f x) eqn:E.
    + constructor; assumption.
    + exact IH.
Qed.

Lemma take_all_pass {A : Type} (P : A -> Prop) (n : nat) (l : list A) :
  Forall P l -> Forall P (take n l).
Proof.
  intros H. revert n. induction H as [|x l Hx Hl IH]; intros [|n]; cbn;
    constructor; auto.
Qed.

(** C10: on a ready page whose snapshot is marked [done], the done panel
    lists the first two accepted offers of the snapshot and its first
    declined offer, in the snapshot's order: never more than two and one,
    however many the snapshot holds. *)
Theorem shown_offers_truncated (s : Offers.OffersContent)
    (d : Offers.OffersData) :
  Offers.pageState s = Offers.Ready -> Offers.data s = Some d ->
  Offers.status d = "done" ->
  Offers.panels s
  = [Offers.DonePanel
       (take 2 (List.filter (fun o => Offers.accepted o) (Offers.offers d)))
       (take 1 (List.filter (fun o => negb (Offers.accepted o))
                  (Offers.offers d)))] /\
  length (Offers.acceptedOffers s) <= 2 /\
  length (Offers.declinedOffers s) <= 1 /\
  Offers.acceptedOffers s `sublist_of` Offers.offers d /\
  Offers.declinedOffers s `sublist_of` Offers.offers d /\
  Forall (fun o => Offers.accepted o = true) (Offers.acceptedOffers s) /\
  Forall (fun o => Offers.accepted o = false) (Offers.declinedOffers s).
Proof.
  intros Hp Hd Hs. rewrite (done_panel s d Hp Hd Hs).
  unfold Offers.acceptedOffers, Offers.declinedOffers. rewrite Hd.
  split; [reflexivity|].
  split; [apply slice_length|].
  split; [apply slice_length|].
  split; [etrans; [apply sublist_take|apply filter_sublist]|].
  split; [etrans; [apply sublist_take|apply filter_sublist]|].
  split.
  - apply take_all_pass, filter_all_pass.
  - apply take_all_pass.
    eapply Forall_impl; [apply filter_all_pass|].
    cbn. intros o Ho. apply negb_true_iff. exact Ho.
Qed.

Lemma shown_offers_truncated_witness :
  Offers.panels (OfferSamples.showing OfferSamples.many)
  = [Offers.DonePanel
       [OfferSamples.offer "s1" true (Some 300%float);
        OfferSamples.offer "s3" true (Some 450%float)]
       [OfferSamples.offer "s2" false None]].
Proof.
  exact (proj1 (shown_offers_truncated
                  (OfferSamples.showing OfferSamples.many) OfferSamples.many
                  eq_refl eq_refl eq_refl)).
Defined.

(** C5, as stated, fails once more than two stores accepted (or more than
    one declined): of the three accepted offers of this snapshot the page
    shows two, and of its two declined offers one. *)
Lemma shown_offers_drop_the_rest :
  Offers.status OfferSamples.many = "done" /\
  Offers.panels (OfferSamples.showing OfferSamples.many)
  = [Offers.DonePanel
       [OfferSamples.offer "s1" true (Some 300%float);
        OfferSamples.offer "s3" true (Some 450%float)]
       [OfferSamples.offer "s2" false None]] /\
  List.filter (fun o => Offers.accepted o) (Offers.offers OfferSamples.many)
  = [OfferSamples.offer "s1" true (Some 300%float);
     OfferSamples.offer "s3" true (Some 450%float);
     OfferSamples.offer "s4" true (Some 500%float)] /\
  List.filter (fun o => negb (Offers.accepted o))
    (Offers.offers OfferSamples.many)
  = [OfferSamples.offer "s2" false None; OfferSamples.offer "s5" false None] /\
  Offers.acceptedOffers (OfferSamples.showing OfferSamples.many)
  <> List.filter (fun o => Offers.accepted o) (Offers.offers OfferSamples.many).
Proof. repeat split. discriminate. Qed.

(** C5, amended: on a ready page whose snapshot is marked [done] and
    holds at most two accepted and at most one declined offer, the done
    panel lists exactly the offers with [accepted = true], in their
    order, and exactly the offers with [accepted = false], in their
    order. *)
Theorem shown_offers_partition_when_few (s : Offers.OffersContent)
    (d : Offers.OffersData) :
  Offers.pageState s = Offers.Ready -> Offers.data s = Some d ->
  Offers.status d = "done" ->
  length (List.filter (fun o => Offers.accepted o) (Offers.offers d)) <= 2 ->
  length (List.filter (fun o => negb (Offers.accepted o)) (Offers.offers d)) <= 1 ->
  Offers.panels s
  = [Offers.DonePanel
       (List.filter (fun o => Offers.accepted o) (Offers.offers d))
       (List.filter (fun o => negb (Offers.accepted o)) (Offers.offers d))].
Proof.
  intros Hp Hd Hs Ha Hn. rewrite (done_panel s d Hp Hd Hs).
  unfold Offers.acceptedOffers, Offers.declinedOffers. rewrite Hd.
  rewrite (slice_all 2 _ Ha), (slice_all 1 _ Hn). reflexivity.
Qed.

(** The snapshot of the amended C5's example: accepted at 300, declined,
    accepted at 450. *)
Lemma shown_offers_partition_when_few_witness :
  Offers.panels (OfferSamples.showing OfferSamples.few)
  = [Offers.DonePanel
       [OfferSamples.offer "s1" true (Some 300%float);
        OfferSamples.offer "s3" true (Some 450%float)]
       [OfferSamples.offer "s2" false None]].
Proof.
  assert (Ha : length (List.filter (fun o => Offers.accepted o)
                         (Offers.offers OfferSamples.few)) <= 2)
    by (cbn; lia).
  assert (Hn : length (List.filter (fun o => negb (Offers.accepted o))
                         (Offers.offers OfferSamples.few)) <= 1)
    by (cbn; lia).
  exact (shown_offers_partition_when_few
           (OfferSamples.showing OfferSamples.few) OfferSamples.few
           eq_refl eq_refl eq_refl Ha Hn).
Defined.

(** C7: with a job id in the address, while the service answers 2xx with
    a snapshot marked [pending], a second [fetchOffers] leaves the page
    stage where the first left it ([ready], showing the in-progress panel
    and no offer list), the snapshot held after each call is the one that
    call received, and when both calls received the same snapshot the
    page after the second is the page after the first. *)
Theorem fetchOffers_pending_idempotent (jobId : string)
    (net1 net2 : Network Offers.OffersData) (s : Offers.OffersContent)
    (token1 token2 : option string)
    (res1 res2 : Response Offers.OffersData) (d1 d2 : Offers.OffersData) :
  jobId <> "" ->
  getToken net1 = Fulfilled token1 -> fetch net1 = Fulfilled res1 ->
  (200 <= status res1 <= 299)%Z -> json res1 = Fulfilled d1 ->
  Offers.status d1 = "pending" ->
  getToken net2 = Fulfilled token2 -> fetch net2 = Fulfilled res2 ->
  (200 <= status res2 <= 299)%Z -> json res2 = Fulfilled d2 ->
  Offers.status d2 = "pending" ->
  let once := Offers.fetchOffers (Some jobId) net1 s in
  let twice := Offers.fetchOffers (Some jobId) net2 once in
  Offers.pageState once = Offers.Ready /\
  Offers.pageState twice = Offers.Ready /\
  Offers.data once = Some d1 /\
  Offers.data twice = Some d2 /\
  Offers.panels once = [Offers.InProgressPanel] /\
  Offers.panels twice = [Offers.InProgressPanel] /\
  (d1 = d2 -> twice = once).
Proof.
  intros Hid Ht1 Hf1 Hst1 Hj1 Hp1 Ht2 Hf2 Hst2 Hj2 Hp2 once twice.
  assert (Htr : truthy (Some jobId) = true).
  { cbn. destruct (String.eqb jobId "") eqn:E; [|reflexivity].
    apply String.eqb_eq in E. contradiction. }
  assert (Honce : once = s ;> Offers.setData (Some d1)
                           ;> Offers.setPageState Offers.Ready).
  { unfold once, Offers.fetchOffers. rewrite Htr. cbn.
    rewrite (getOffers_2xx net1 token1 res1 d1 Ht1 Hf1 Hst1 Hj1).
    reflexivity. }
  assert (Htwice : twice = once ;> Offers.setData (Some d2)
                                ;> Offers.setPageState Offers.Ready).
  { unfold twice, Offers.fetchOffers. rewrite Htr. cbn.
    rewrite (getOffers_2xx net2 token2 res2 d2 Ht2 Hf2 Hst2 Hj2).
    reflexivity. }
  assert (Hnd : forall d, Offers.status d = "pending" -> Offers.status d <> "done").
  { intros d Hd. rewrite Hd. discriminate. }
  rewrite Htwice, Honce.
  split; [reflexivity|]. split; [reflexivity|].
  split; [reflexivity|]. split; [reflexivity|].
  split; [apply (in_progress_panel _ d1); auto|].
  split; [apply (in_progress_panel _ d2); auto|].
  intros ->. reflexivity.
Qed.

Lemma fetchOffers_pending_idempotent_witness :
  Offers.fetchOffers (Some "j1") (OfferSamples.answers OfferSamples.running)
    (Offers.fetchOffers (Some "j1") (OfferSamples.answers OfferSamples.running)
       Offers.initial)
  = Offers.fetchOffers (Some "j1") (OfferSamples.answers OfferSamples.running)
      Offers.initial.
Proof.
  assert (Hid : "j1" <> "") by discriminate.
  assert (Hst : (200 <= 200 <= 299)%Z) by lia.
  exact (proj2 (proj2 (proj2 (proj2 (proj2 (proj2
           (fetchOffers_pending_idempotent "j1"
              (OfferSamples.answers OfferSamples.running)
              (OfferSamples.answers OfferSamples.running)
              Offers.initial (Some "tok") (Some "tok") _ _
              OfferSamples.running OfferSamples.running
              Hid eq_refl eq_refl Hst eq_refl eq_refl
              eq_refl eq_refl Hst eq_refl eq_refl)))))) eq_refl).
Defined.

End OffersFacts.

(** ** What every reachable page satisfies *)

Section ReachFacts.
Import Home.

(** Case analysis of one [step]: the scrutinees of its matches, variables
    first and then the innermost ones. *)
Ltac open_step H :=
  repeat match type of H with
         | context [match ?x with _ => _ end] => is_var x; destruct x
         | context [if ?x then _ else _] => is_var x; destruct x
         end;
  repeat match type of H with
         | context [match ?x with _ => _ end] =>
             lazymatch x with
             | context [match _ with _ => _ end] => fail
             | _ => destruct x eqn:?
             end
         end;
  try discriminate H;
  injection H as <-; cbn in *.

Ltac stage_cases :=
  repeat match goal with
         | |- _ /\ _ => split
         | |- _ <-> _ => split
         | |- _ -> _ => intro
         | H : _ /\ _ |- _ => destruct H
         | H : is_Some None |- _ => destruct H; discriminate
         | H : ?x = _ |- _ => is_var x; subst x
         | H : ?a = ?a -> _ |- _ => specialize (H eq_refl)
         end;
  try discriminate; try congruence; try lia; eauto.

Ltac unfold_handlers H :=
  unfold rendered, withPage, onFileChange, onDrop, handleFile, retry, reset,
    handleAnalyze_begin, handleNegotiate_begin, handleAnalyze_settle,
    handleNegotiate_settle in H.


Lemma start_stages : stagesConsistent start.
Proof. unfold stagesConsistent; cbn. stage_cases; discriminate. Qed.

Lemma step_stages (e : Event) (w w' : Session) :
  stagesConsistent w -> step e w = Some w' -> stagesConsistent w'.
Proof.
  destruct w as [[st pv dr cf ar em co jb ou] na nn].
  unfold stagesConsistent. cbn.
  intros (HI & [Hpc Hcp] & HA & HR & HC & HE) Hstep.
  destruct e; unfold step in Hstep;
    cbn [page analyzeInFlight negotiateInFlight] in Hstep.
  all: try (generalize dependent (analyze net); intros out Hstep).
  all: try (generalize dependent (negotiate net); intros out Hstep).
  all: unfold_handlers Hstep; cbn in Hstep.
  all: open_step Hstep.
  all: stage_cases.
Qed.

Lemma run_stages (es : list Event) (w w' : Session) :
  stagesConsistent w -> run es w = Some w' -> stagesConsistent w'.
Proof.
  revert w. induction es as [|e es IH]; intros w Hw Hrun; cbn in Hrun.
  - injection Hrun as <-. exact Hw.
  - destruct (step e w) as [w1|] eqn:E; [|discriminate].
    exact (IH w1 (step_stages e w w1 Hw E) Hrun).
Qed.






(** X2: the file and its preview are held together.  On every reachable
    page the preview is null exactly when the current file is, and the
    idle stage holds neither, nor an analysis result, nor an error
    message. *)
Theorem image_and_preview_go_together (es : list Event) (w : Session) :
  run es start = Some w ->
  (preview (page w) = None <-> currentFile (page w) = None) /\
  (state (page w) = Idle ->
   preview (page w) = None /\ currentFile (page w) = None /\
   analysisResult (page w) = None /\ errorMessage (page w) = None).
Proof.
  intros Hrun.
  pose proof (run_stages es start w start_stages Hrun) as (HI & Hpc & _).
  split; [exact Hpc|]. intros Hst. destruct (HI Hst) as (Hp & Ha & He).
  repeat split; try assumption. apply Hpc, Hp.
Qed.

Lemma image_and_preview_go_together_witness :
  exists w,
    run Samples.resetDuringAnalyze start = Some w /\
    preview (page w) = None /\ currentFile (page w) = None.
Proof.
  eexists. split; [vm_compute; reflexivity|].
  pose proof (image_and_preview_go_together Samples.resetDuringAnalyze _
                ltac:(vm_compute; reflexivity)) as [_ H].
  destruct (H eq_refl) as (Hp & Hf & _). exact (conj Hp Hf).
Defined.



(** X4: the analyzing stage always waits for an answer.  On every
    reachable page in the analyzing stage a file is held and an analysis
    request is in flight; no control is on screen, and the answer, when
    it comes, brings up the results or the error stage. *)
Theorem analyzing_waits_for_an_answer (es : list Event) (w : Session) :
  run es start = Some w -> state (page w) = Analyzing ->
  is_Some (currentFile (page w)) /\ 0 < analyzeInFlight w /\
  (forall e, rendered e (page w) = false) /\
  (forall net, exists w',
      step (AnalyzeSettled net) w = Some w' /\
      (state (page w') = Results \/ state (page w') = Error)).
Proof.
  intros Hrun Hst.
  pose proof (run_stages es start w start_stages Hrun) as (_ & _ & HA & _).
  destruct (HA Hst) as [Hf Hn]. split; [exact Hf|]. split; [exact Hn|]. split.
  - intros e. apply analyzing_offers_nothing, Hst.
  - intros net. cbn. destruct (analyzeInFlight w) as [|n]; [lia|].
    eexists. split; [reflexivity|]. cbn.
    destruct (analyze net); cbn; auto.
Qed.

Lemma analyzing_waits_for_an_answer_witness :
  exists w,
    run [FileChange [Samples.photo] "blob:1"; ClickAnalyze] start = Some w /\
    0 < analyzeInFlight w.
Proof.
  eexists. split; [vm_compute; reflexivity|].
  exact (proj1 (proj2 (analyzing_waits_for_an_answer
                  [FileChange [Samples.photo] "blob:1"; ClickAnalyze] _
                  ltac:(vm_compute; reflexivity) eq_refl))).
Defined.

(** What one event can do to the two data cells. *)
Lemma step_provenance (e : Event) (w w' : Session) :
  step e w = Some w' ->
  (analysisResult (page w') = analysisResult (page w) \/
   analysisResult (page w') = None \/
   exists net a, e = AnalyzeSettled net /\ analyze net = Fulfilled a /\
                 analysisResult (page w') = Some a) /\
  (jobId (page w') = jobId (page w) \/
   exists net j, e = NegotiateSettled net /\ negotiate net = Fulfilled j /\
                 jobId (page w') = Some j).
Proof.
  destruct w as [[st pv dr cf ar em co jb ou] na nn]. intros Hstep.
  destruct e; unfold step in Hstep;
    cbn [page analyzeInFlight negotiateInFlight] in Hstep.
  10: { destruct na; [discriminate|]. injection Hstep as <-. cbn.
        destruct (analyze net) as [a|] eqn:Ha; cbn; split; auto.
        right. right. exists net, a. auto. }
  10: { destruct nn; [discriminate|]. injection Hstep as <-. cbn.
        destruct (negotiate net) as [j|] eqn:Hj; cbn; split; auto.
        right. exists net, j. auto. }
  all: unfold_handlers Hstep; cbn in Hstep.
  all: open_step Hstep; auto.
Qed.

Lemma run_provenance (es : list Event) (w w' : Session) :
  run es w = Some w' ->
  (forall a, analysisResult (page w') = Some a ->
     analysisResult (page w) = Some a \/
     exists net, AnalyzeSettled net ∈ es /\ analyze net = Fulfilled a) /\
  (forall j, jobId (page w') = Some j ->
     jobId (page w) = Some j \/
     exists net, NegotiateSettled net ∈ es /\ negotiate net = Fulfilled j).
Proof.
  revert w. induction es as [|e es IH]; intros w Hrun; cbn in Hrun.
  - injection Hrun as <-. split; auto.
  - destruct (step e w) as [w1|] eqn:E; [|discriminate].
    destruct (IH w1 Hrun) as [IHa IHj].
    destruct (step_provenance e w w1 E) as [Ha Hj]. split.
    + intros a Hw'. destruct (IHa a Hw') as [H1|(net & Hin & Hnet)].
      * destruct Ha as [Ha|[Ha|(net & a' & -> & Hnet & Ha)]].
        -- left. congruence.
        -- congruence.
        -- right. exists net. split; [apply list_elem_of_here|congruence].
      * right. exists net.
        split; [apply list_elem_of_further, Hin|exact Hnet].
    + intros j Hw'. destruct (IHj j Hw') as [H1|(net & Hin & Hnet)].
      * destruct Hj as [Hj|(net & j' & -> & Hnet & Hj)].
        -- left. congruence.
        -- right. exists net. split; [apply list_elem_of_here|congruence].
      * right. exists net.
        split; [apply list_elem_of_further, Hin|exact Hnet].
Qed.

(** X19: the page never makes up its data.  Whatever analysis result a
    reachable page holds is the payload of an analysis answer that
    arrived in this session, and whatever job handle it holds is the
    [job_id] of a negotiation answer that arrived in this session. *)
Theorem stored_data_came_from_service (es : list Event) (w : Session) :
  run es start = Some w ->
  (forall a, analysisResult (page w) = Some a ->
     exists net, AnalyzeSettled net ∈ es /\ analyze net = Fulfilled a) /\
  (forall j, jobId (page w) = Some j ->
     exists net, NegotiateSettled net ∈ es /\ negotiate net = Fulfilled j).
Proof.
  intros Hrun. destruct (run_provenance es start w Hrun) as [Ha Hj]. split.
  - intros a Hw. destruct (Ha a Hw) as [H|H]; [discriminate H|exact H].
  - intros j Hw. destruct (Hj j Hw) as [H|H]; [discriminate H|exact H].
Qed.

Lemma stored_data_came_from_service_witness :
  exists net,
    NegotiateSettled net
      ∈ Samples.resetDuringNegotiate ++ [NegotiateSettled Samples.negotiateOk] /\
    negotiate net = Fulfilled "j1".
Proof.
  exact (proj2 (stored_data_came_from_service
                  (Samples.resetDuringNegotiate
                   ++ [NegotiateSettled Samples.negotiateOk]) _
                  ltac:(vm_compute; reflexivity)) "j1" eq_refl).
Defined.

End ReachFacts.

(** ** More on the handlers of the upload page *)

Section HandlerFacts.
Import Home.




(** X6: when [/api/negotiate] answers outside 2xx with a readable body,
    the click on the negotiate button ends in the error stage with the
    body text itself as message (no prefix), the analysis result and the
    job handle as they were; "Try again" then leads to the preview stage,
    not back to the results, with the analysis result still stored. *)
Theorem negotiate_failure_message (w : Session)
    (net : Network NegotiateReply) (a : AnalysisResult)
    (token : option string) (res : Response NegotiateReply) (body : string) :
  state (page w) = Results ->
  analysisResult (page w) = Some a -> analysis_id a <> "" ->
  getToken net = Fulfilled token -> fetch net = Fulfilled res ->
  (status res < 200 \/ 299 < status res)%Z -> text res = Fulfilled body ->
  exists failed again,
    run [ClickNegotiate; NegotiateSettled net] w = Some failed /\
    state (page failed) = Error /\
    errorMessage (page failed) = Some body /\
    analysisResult (page failed) = Some a /\
    jobId (page failed) = jobId (page w) /\
    step ClickRetry failed = Some again /\
    state (page again) = Preview /\
    analysisResult (page again) = Some a.
Proof.
  intros Hs Ha Hid Ht Hf Hst Hb. apply not_ok_status in Hst.
  assert (Hn : negotiate net = Rejected (ErrorObj body)).
  { unfold negotiate. rewrite Ht, Hf. cbn. rewrite Hst. cbn.
    rewrite Hb. reflexivity. }
  assert (Hbegin : handleNegotiate_begin (page w) = Some (page w)).
  { unfold handleNegotiate_begin. rewrite Ha. cbn.
    destruct (String.eqb (analysis_id a) "") eqn:E; [|reflexivity].
    apply String.eqb_eq in E. contradiction. }
  eexists. eexists. split.
  { cbn. unfold rendered. rewrite Hs, Ha, Hbegin. cbn. rewrite Hn.
    reflexivity. }
  cbn. repeat split. exact Ha. exact Ha.
Qed.

Lemma negotiate_failure_message_witness :
  exists failed,
    run [ClickNegotiate;
         NegotiateSettled
           {| getToken := Samples.token;
              fetch := Fulfilled {| status := 503%Z;
                                    text := Fulfilled "no agents free";
                                    json := Rejected NotAnError |} |}]
        {| page := Samples.resultsPage; analyzeInFlight := 0;
           negotiateInFlight := 0 |} = Some failed /\
    errorMessage (page failed) = Some "no agents free".
Proof.
  assert (Hst : (503 < 200 \/ 299 < 503)%Z) by lia.
  assert (Hid : "a1" <> "") by discriminate.
  destruct (negotiate_failure_message
              {| page := Samples.resultsPage; analyzeInFlight := 0;
                 negotiateInFlight := 0 |}
              {| getToken := Samples.token;
                 fetch := Fulfilled {| status := 503%Z;
                                       text := Fulfilled "no agents free";
                                       json := Rejected NotAnError |} |}
              Samples.lamp (Some "tok") _ "no agents free"
              eq_refl eq_refl Hid eq_refl eq_refl Hst eq_refl)
    as (failed & again & Hrun & _ & Hmsg & _).
  exists failed. exact (conj Hrun Hmsg).
Defined.

(** X7: when the request itself fails (the [fetch] promise rejects), a
    run of [handleAnalyze] with a file held ends in the error stage and
    shows the thrown error's own message, without the [Analysis failed: ]
    prefix, or [Something went wrong] when the thrown value is not an
    [Error]. *)
Theorem transport_failure_message (net : Network AnalysisResult)
    (s : HomePage) (file : File) (token : option string) (err : thrown) :
  currentFile s = Some file ->
  getToken net = Fulfilled token -> fetch net = Rejected err ->
  state (handleAnalyze net s) = Error /\
  errorMessage (handleAnalyze net s)
  = Some (match err with
          | ErrorObj message => message
          | NotAnError => "Something went wrong"
          end) /\
  analysisResult (handleAnalyze net s) = analysisResult s /\
  currentFile (handleAnalyze net s) = Some file.
Proof.
  intros Hfile Ht Hf. unfold handleAnalyze, handleAnalyze_begin, analyze.
  rewrite Hfile, Ht, Hf. cbn. destruct err; repeat split; exact Hfile.
Qed.

Lemma transport_failure_message_witness :
  errorMessage
    (handleAnalyze {| getToken := Samples.token;
                      fetch := Rejected (ErrorObj "Failed to fetch") |}
       Samples.previewPage)
  = Some "Failed to fetch".
Proof.
  exact (proj1 (proj2 (transport_failure_message
                  {| getToken := Samples.token;
                     fetch := Rejected (ErrorObj "Failed to fetch") |}
                  Samples.previewPage Samples.photo (Some "tok") _
                  eq_refl eq_refl eq_refl))).
Defined.

(** X8: the analyze button without a file does nothing.  In the preview
    stage with no current file (reachable through "Try again" after a
    late failure), the click sends no request and leaves the session as
    it is, whatever the network would answer. *)
Theorem analyze_click_without_file (w : Session) :
  state (page w) = Preview -> currentFile (page w) = None ->
  step ClickAnalyze w = Some w /\
  forall net, handleAnalyze net (page w) = page w.
Proof.
  intros Hs Hfile. split.
  - cbn. unfold rendered, handleAnalyze_begin. rewrite Hs, Hfile.
    reflexivity.
  - intros net. unfold handleAnalyze, handleAnalyze_begin. rewrite Hfile.
    reflexivity.
Qed.

Lemma analyze_click_without_file_witness :
  exists w,
    run (Samples.resetDuringNegotiate
         ++ [NegotiateSettled {| getToken := Rejected NotAnError;
                                 fetch := Rejected NotAnError |};
             ClickRetry]) start = Some w /\
    step ClickAnalyze w = Some w.
Proof.
  eexists. split; [vm_compute; reflexivity|].
  refine (proj1 (analyze_click_without_file _ _ _)); reflexivity.
Defined.

(** X9: [reset] is idempotent, and the only cells it can change are the
    stage, the preview, the file, the analysis result and the error
    message. *)
Theorem reset_idempotent (s : HomePage) :
  reset (reset s) = reset s /\
  dragging (reset s) = dragging s /\ coords (reset s) = coords s /\
  jobId (reset s) = jobId s /\ objectURLs (reset s) ⊆ objectURLs s.
Proof.
  unfold reset. destruct (truthy (preview s)); cbn; repeat split;
    try reflexivity.
  apply subseteq_difference_l. reflexivity.
Qed.

(** X10: choosing an image in the idle stage, by the picker, the camera
    or a drop, brings up the preview stage holding that file and the
    object URL made for it, now live; only the first file of the
    selection counts, the analysis result, the error message and the job
    handle are untouched, and no request leaves. *)
Theorem image_selection_enters_preview (w : Session) (file : File)
    (rest : list File) (url : string) :
  state (page w) = Idle -> String.prefix "image/" (type file) = true ->
  exists picked dropped,
    step (FileChange (file :: rest) url) w = Some picked /\
    step (Dropped (file :: rest) url) w = Some dropped /\
    page dropped = setDragging false (page picked) /\
    state (page picked) = Preview /\
    currentFile (page picked) = Some file /\
    preview (page picked) = Some url /\
    url ∈ objectURLs (page picked) /\
    analysisResult (page picked) = analysisResult (page w) /\
    errorMessage (page picked) = errorMessage (page w) /\
    jobId (page picked) = jobId (page w) /\
    analyzeInFlight picked = analyzeInFlight w /\
    negotiateInFlight picked = negotiateInFlight w.
Proof.
  intros Hs Hty. eexists. eexists.
  split. { cbn. unfold rendered. rewrite Hs. reflexivity. }
  split. { cbn. unfold rendered. rewrite Hs. reflexivity. }
  cbn. unfold handleFile. cbn. rewrite Hty. cbn.
  repeat split. apply elem_of_union_l, elem_of_singleton. reflexivity.
Qed.

Lemma image_selection_enters_preview_witness :
  exists picked,
    step (FileChange [Samples.photo; Samples.invoice] "blob:1") start
      = Some picked /\
    currentFile (page picked) = Some Samples.photo.
Proof.
  destruct (image_selection_enters_preview start Samples.photo
              [Samples.invoice] "blob:1" eq_refl eq_refl)
    as (picked & dropped & Hp & _ & _ & _ & Hf & _).
  exists picked. exact (conj Hp Hf).
Defined.

End HandlerFacts.

(** ** More on the offers page *)

Section OffersPageFacts.

(** X11: the offers page shows exactly one of its four panels, and the
    lists of offers only on a ready page whose snapshot has the status
    [done], whatever the snapshot holds otherwise. *)
Theorem one_panel_at_a_time (s : Offers.OffersContent) :
  length (Offers.panels s) = 1 /\
  ((exists acc dec, Offers.panels s = [Offers.DonePanel acc dec]) <->
   Offers.pageState s = Offers.Ready /\
   exists d, Offers.data s = Some d /\ Offers.status d = "done").
Proof.
  unfold Offers.panels, Offers.statusDone.
  destruct (Offers.pageState s); cbn.
  - split; [reflexivity|]. split.
    + intros (acc & dec & H). discriminate.
    + intros [H _]. discriminate.
  - destruct (Offers.data s) as [d|]; cbn.
    + destruct (String.eqb (Offers.status d) "done") eqn:E; cbn.
      * split; [reflexivity|]. split; [intros _|eauto].
        split; [reflexivity|]. exists d. apply String.eqb_eq in E. auto.
      * split; [reflexivity|]. split.
        { intros (acc & dec & H). discriminate. }
        intros (_ & d' & [= <-] & Hd). apply String.eqb_neq in E.
        contradiction.
    + split; [reflexivity|]. split.
      * intros (acc & dec & H). discriminate.
      * intros (_ & d & H & _). discriminate.
  - split; [reflexivity|]. split.
    + intros (acc & dec & H). discriminate.
    + intros [H _]. discriminate.
Qed.

(** X12: without a job id in the address (absent or empty),
    [fetchOffers] sends nothing: whatever the network would answer, the
    page shows the error panel with [No job ID provided.] and keeps the
    snapshot it had. *)
Theorem fetchOffers_without_job_id (jobId : option string)
    (net : Network Offers.OffersData) (s : Offers.OffersContent) :
  jobId = None \/ jobId = Some "" ->
  Offers.panels (Offers.fetchOffers jobId net s)
  = [Offers.ErrorPanel (Some "No job ID provided.")] /\
  Offers.data (Offers.fetchOffers jobId net s) = Offers.data s /\
  forall net', Offers.fetchOffers jobId net' s = Offers.fetchOffers jobId net s.
Proof.
  intros [-> | ->]; unfold Offers.fetchOffers; cbn; repeat split.
Qed.

Lemma fetchOffers_without_job_id_witness :
  Offers.panels
    (Offers.fetchOffers None (OfferSamples.answers OfferSamples.few)
       (OfferSamples.showing OfferSamples.few))
  = [Offers.ErrorPanel (Some "No job ID provided.")].
Proof.
  exact (proj1 (fetchOffers_without_job_id None
                  (OfferSamples.answers OfferSamples.few)
                  (OfferSamples.showing OfferSamples.few)
                  (or_introl eq_refl))).
Defined.

(** X13: a refresh that fails hides the offers but does not forget them.
    When [/api/offers] answers outside 2xx with a readable body, the
    page shows only the error panel with that body text, still holding
    the snapshot and the open label it had; a later successful refresh
    shows the new snapshot again, the old message staying in its cell. *)
Theorem failed_refresh_hides_offers (jobId : string)
    (net1 net2 : Network Offers.OffersData) (s : Offers.OffersContent)
    (token1 token2 : option string)
    (res1 res2 : Response Offers.OffersData) (body : string)
    (d : Offers.OffersData) :
  jobId <> "" ->
  getToken net1 = Fulfilled token1 -> fetch net1 = Fulfilled res1 ->
  (status res1 < 200 \/ 299 < status res1)%Z -> text res1 = Fulfilled body ->
  getToken net2 = Fulfilled token2 -> fetch net2 = Fulfilled res2 ->
  (200 <= status res2 <= 299)%Z -> json res2 = Fulfilled d ->
  let failed := Offers.fetchOffers (Some jobId) net1 s in
  let again := Offers.fetchOffers (Some jobId) net2 failed in
  Offers.panels failed = [Offers.ErrorPanel (Some body)] /\
  Offers.data failed = Offers.data s /\
  Offers.acceptedOfferId failed = Offers.acceptedOfferId s /\
  Offers.pageState again = Offers.Ready /\
  Offers.data again = Some d /\
  Offers.errorMessage again = Some body.
Proof.
  intros Hid Ht1 Hf1 Hst1 Hb Ht2 Hf2 Hst2 Hj failed again.
  apply not_ok_status in Hst1.
  assert (Htr : truthy (Some jobId) = true).
  { cbn. destruct (String.eqb jobId "") eqn:E; [|reflexivity].
    apply String.eqb_eq in E. contradiction. }
  assert (H1 : Offers.getOffers net1 = Rejected (ErrorObj body)).
  { unfold Offers.getOffers. rewrite Ht1, Hf1. cbn. rewrite Hst1. cbn.
    rewrite Hb. reflexivity. }
  pose proof (getOffers_2xx net2 token2 res2 d Ht2 Hf2 Hst2 Hj) as H2.
  unfold again, failed, Offers.fetchOffers. rewrite Htr. cbn.
  rewrite H1, H2. cbn. repeat split.
Qed.

Lemma failed_refresh_hides_offers_witness :
  Offers.panels
    (Offers.fetchOffers (Some "j1")
       {| getToken := Fulfilled None;
          fetch := Fulfilled (Build_Response Offers.OffersData 404%Z
                                (Fulfilled "job not found")
                                (Rejected NotAnError)) |}
       (OfferSamples.showing OfferSamples.few))
  = [Offers.ErrorPanel (Some "job not found")].
Proof.
  assert (Hid : "j1" <> "") by discriminate.
  assert (H1 : (404 < 200 \/ 299 < 404)%Z) by lia.
  assert (H2 : (200 <= 200 <= 299)%Z) by lia.
  exact (proj1 (failed_refresh_hides_offers "j1"
                  {| getToken := Fulfilled None;
                     fetch := Fulfilled (Build_Response Offers.OffersData 404%Z
                                           (Fulfilled "job not found")
                                           (Rejected NotAnError)) |}
                  (OfferSamples.answers OfferSamples.few)
                  (OfferSamples.showing OfferSamples.few)
                  None (Some "tok") _ _ "job not found" OfferSamples.few
                  Hid eq_refl eq_refl H1 eq_refl
                  eq_refl eq_refl H2 eq_refl)).
Defined.

(** Among offers with distinct ids, at most one has a given id. *)
Lemma no_label_for_absent_id (a : string) (l : list Offers.OfferResult) :
  a ∉ Offers.id <$> l ->
  List.filter (fun o => String.eqb a (Offers.id o)) l = [].
Proof.
  induction l as [|o l IH]; cbn; intros Hnot; [reflexivity|].
  apply not_elem_of_cons in Hnot as [Hne Hnot].
  destruct (String.eqb a (Offers.id o)) eqn:E.
  - apply String.eqb_eq in E. contradiction.
  - exact (IH Hnot).
Qed.

Lemma one_label_for_id (a : string) (l : list Offers.OfferResult) :
  NoDup (Offers.id <$> l) ->
  length (List.filter (fun o => String.eqb a (Offers.id o)) l) <= 1.
Proof.
  induction l as [|o l IH]; cbn; intros Hnd; [lia|].
  apply NoDup_cons in Hnd as [Hnot Hnd].
  destruct (String.eqb a (Offers.id o)) eqn:E.
  - apply String.eqb_eq in E. subst a.
    rewrite (no_label_for_absent_id _ l Hnot). cbn. lia.
  - exact (IH Hnd).
Qed.

(** X14: when the accepted offers on screen have distinct ids, at most
    one shipping label is shown at a time. *)
Theorem at_most_one_label (s : Offers.OffersContent) :
  NoDup (Offers.id <$> Offers.acceptedOffers s) ->
  length (Offers.shippingLabels s) <= 1.
Proof.
  intros Hnd. unfold Offers.shippingLabels, Offers.labelShown.
  destruct (Offers.acceptedOfferId s) as [a|].
  - apply one_label_for_id, Hnd.
  - induction (Offers.acceptedOffers s); cbn; [lia|].
    apply IHl. apply NoDup_cons in Hnd as [_ Hnd]. exact Hnd.
Qed.

Lemma at_most_one_label_witness :
  length (Offers.shippingLabels
            (Offers.toggleLabel (OfferSamples.offer "s3" true None)
               (OfferSamples.showing OfferSamples.many))) <= 1.
Proof.
  apply at_most_one_label. apply (bool_decide_unpack _). reflexivity.
Defined.

(** X15: the button of an accepted offer toggles that offer's label and
    closes every label of another id; a refresh, whatever its outcome,
    leaves the open label as it is. *)
Theorem toggle_label (s : Offers.OffersContent)
    (offer other : Offers.OfferResult) :
  Offers.id other <> Offers.id offer ->
  Offers.labelShown (Offers.toggleLabel offer s) offer
  = negb (Offers.labelShown s offer) /\
  Offers.labelShown (Offers.toggleLabel offer s) other = false /\
  Offers.toggleLabel offer (Offers.toggleLabel offer (Offers.toggleLabel offer s))
  = Offers.toggleLabel offer s /\
  forall jobId net,
    Offers.acceptedOfferId (Offers.fetchOffers jobId net s)
    = Offers.acceptedOfferId s.
Proof.
  intros Hne.
  assert (Hself : String.eqb (Offers.id offer) (Offers.id offer) = true)
    by apply String.eqb_refl.
  assert (Hother : String.eqb (Offers.id offer) (Offers.id other) = false).
  { apply String.eqb_neq. congruence. }
  assert (Hrefresh : forall jobId net,
             Offers.acceptedOfferId (Offers.fetchOffers jobId net s)
             = Offers.acceptedOfferId s).
  { intros jobId net. unfold Offers.fetchOffers.
    destruct (negb (truthy jobId)); cbn; [reflexivity|].
    destruct (Offers.getOffers net); reflexivity. }
  split; [|split; [|split; [|exact Hrefresh]]];
    unfold Offers.toggleLabel, Offers.labelShown; cbn;
    destruct (Offers.acceptedOfferId s) as [a|]; cbn;
    try destruct (String.eqb a (Offers.id offer)) eqn:E; cbn;
    rewrite ?Hself, ?Hother; cbn; rewrite ?Hself; reflexivity.
Qed.

Lemma toggle_label_witness :
  Offers.labelShown
    (Offers.toggleLabel (OfferSamples.offer "s1" true None)
       (OfferSamples.showing OfferSamples.few))
    (OfferSamples.offer "s3" true None) = false.
Proof.
  assert (Hne : "s3" <> "s1") by discriminate.
  exact (proj1 (proj2 (toggle_label (OfferSamples.showing OfferSamples.few)
                         (OfferSamples.offer "s1" true None)
                         (OfferSamples.offer "s3" true None) Hne))).
Defined.

End OffersPageFacts.

(** ** The webhook handler *)

Section WebhookFacts.
Import Webhook.

(** X16: the handler sends a row to the [users] table only for a verified
    [user.created] event with a non-empty id and at least one e-mail
    address, and then exactly one row: the id, the first address, and the
    two names with an absent or empty name stored as null. *)
Theorem webhook_inserts_only_valid_users (verify : settled WebhookEvent)
    (insert : UserRow -> settled (option string)) (row : UserRow) :
  row ∈ inserted (POST verify insert) ->
  exists data i first rest,
    verify = Fulfilled (UserCreated data) /\
    id data = Some i /\ i <> "" /\
    email_addresses data = Some (first :: rest) /\
    row = {| user_id := i; email := email_address first;
             row_first_name := orNull (first_name data);
             row_last_name := orNull (last_name data) |} /\
    inserted (POST verify insert) = [row].
Proof.
  unfold POST. intros Hin.
  destruct verify as [[data|ty]|err]; cbn in Hin;
    try (apply elem_of_nil in Hin; contradiction).
  destruct (id data) as [i|] eqn:Hi; cbn in Hin;
    [|apply elem_of_nil in Hin; contradiction].
  destruct (email_addresses data) as [[|first rest]|] eqn:He; cbn in Hin;
    try (apply elem_of_nil in Hin; contradiction).
  destruct (String.eqb i "") eqn:E; cbn in Hin;
    [apply elem_of_nil in Hin; contradiction|].
  exists data, i, first, rest. rewrite Hi, He. cbn. rewrite E. cbn.
  apply String.eqb_neq in E.
  destruct (insert _) as [[error|]|err]; cbn in *;
    apply list_elem_of_singleton in Hin; subst row; repeat split; auto.
Qed.

Lemma webhook_inserts_only_valid_users_witness :
  inserted (POST (Fulfilled (UserCreated ada)) accepts)
  = [ {| user_id := "user_1"; email := "ada@example.org";
         row_first_name := Some "Ada"; row_last_name := None |} ].
Proof.
  destruct (webhook_inserts_only_valid_users
              (Fulfilled (UserCreated ada)) accepts
              {| user_id := "user_1"; email := "ada@example.org";
                 row_first_name := Some "Ada"; row_last_name := None |}
              ltac:(apply list_elem_of_singleton; reflexivity))
    as (_ & _ & _ & _ & _ & _ & _ & _ & _ & H).
  exact H.
Defined.

(** X17: the handler answers 200, 400 or 500 and never throws.  It
    answers 200 only when every row it sent was stored without error,
    and then logs nothing; every other answer comes with exactly one
    [console.error] line; 500 means that the one row sent was refused by
    the database. *)
Theorem webhook_answer (verify : settled WebhookEvent)
    (insert : UserRow -> settled (option string)) :
  let out := POST verify insert in
  (status (response out) = 200 \/ status (response out) = 400 \/
   status (response out) = 500)%Z /\
  (status (response out) = 200%Z ->
   body (response out) = "Webhook processed successfully" /\
   logged out = [] /\
   Forall (fun row => insert row = Fulfilled None) (inserted out)) /\
  (status (response out) <> 200%Z -> length (logged out) = 1) /\
  (status (response out) = 500%Z ->
   exists row error,
     inserted out = [row] /\ insert row = Fulfilled (Some error)).
Proof.
  unfold POST.
  destruct verify as [[data|ty]|err]; cbn.
  2, 3: repeat split; auto; try discriminate; try (intros H; contradiction).
  destruct (id data) as [i|]; cbn.
  2: repeat split; auto; discriminate.
  destruct (email_addresses data) as [[|first rest]|]; cbn.
  1, 3: repeat split; auto; discriminate.
  destruct (String.eqb i ""); cbn.
  1: repeat split; auto; discriminate.
  destruct (insert _) as [[error|]|err] eqn:Hins; cbn.
  - repeat split; auto; try discriminate. intros _. eauto.
  - repeat split; auto; try discriminate. intros H. contradiction.
  - repeat split; auto; discriminate.
Qed.

(** X18: a verified event of any other type is acknowledged with 200
    without touching the database, and so is every well-formed
    [user.created] event whose row the database stores; when verification
    fails the answer is 400 [Webhook error] and nothing is sent. *)
Theorem webhook_acknowledges (insert : UserRow -> settled (option string))
    (data : UserData) (i : string) (first : EmailAddress)
    (rest : list EmailAddress) (ty : string) (err : thrown) :
  id data = Some i -> i <> "" ->
  email_addresses data = Some (first :: rest) ->
  insert {| user_id := i; email := email_address first;
            row_first_name := orNull (first_name data);
            row_last_name := orNull (last_name data) |} = Fulfilled None ->
  status (response (POST (Fulfilled (UserCreated data)) insert)) = 200%Z /\
  length (inserted (POST (Fulfilled (UserCreated data)) insert)) = 1 /\
  POST (Fulfilled (OtherEvent ty)) insert
  = {| response := {| body := "Webhook processed successfully";
                      status := 200 |};
       inserted := []; logged := [] |} /\
  response (POST (Rejected err) insert)
  = {| body := "Webhook error"; status := 400 |} /\
  inserted (POST (Rejected err) insert) = [].
Proof.
  intros Hi Hne He Hins. unfold POST. rewrite Hi, He. cbn.
  destruct (String.eqb i "") eqn:E.
  - apply String.eqb_eq in E. contradiction.
  - cbn. rewrite Hins. repeat split.
Qed.

Lemma webhook_acknowledges_witness :
  status (response (POST (Fulfilled (UserCreated ada)) accepts)) = 200%Z.
Proof.
  assert (Hne : "user_1" <> "") by discriminate.
  exact (proj1 (webhook_acknowledges accepts ada "user_1"
                  {| email_address := "ada@example.org" |}
                  [ {| email_address := "ada@work.example" |} ]
                  "user.updated" NotAnError
                  eq_refl Hne eq_refl eq_refl)).
Defined.

End WebhookFacts.
